(** * Salary dashboard (app1.py): filtering and aggregation

    A shallow embedding of the data path of the dashboard script: the
    boolean-mask filter over the four categorical columns, the summary
    metrics block, the grouped aggregates behind the charts, and the
    country-code normaliser [converter_sigla].

    Tables are lists of rows in index order; a column is the list of the
    values of one field.  Python exceptions are explicit: every operation
    that can raise returns a [Resultado].  What belongs to the libraries and
    cannot be written down here (float arithmetic of the means, the order the
    default sort kind leaves equal values in, [str.upper], the [pycountry]
    table) is a variable of the section [Bibliotecas]. *)

From Stdlib Require Import ZArith QArith String Ascii List Sorted Permutation Lia.
From stdpp Require Import base option list sorting strings gmap.

Set Warnings "-notation-for-abbreviation".
Close Scope Q_scope.
Local Open Scope string_scope.
Local Open Scope list_scope.

(** ** Exceptions *)

Inductive Excecao : Type :=
  | ValueError
  | NameError
  | AttributeError
  | KeyError
  | IndexError
  | LookupError.

Inductive Resultado (A : Type) : Type :=
  | Ok (a : A)
  | Raise (e : Excecao).

Arguments Ok {A} a.
Arguments Raise {A} e.

#[global] Instance Resultado_ret : MRet Resultado := λ A a, Ok a.
#[global] Instance Resultado_bind : MBind Resultado := λ A B f m,
  match m with
  | Ok a => f a
  | Raise e => Raise e
  end.

(** [try: corpo  except: tratador] with a bare [except], which catches
    every exception. *)
Definition tentar {A} (corpo : Resultado A) (tratador : Excecao → Resultado A)
    : Resultado A :=
  match corpo with
  | Ok a => Ok a
  | Raise e => tratador e
  end.

Fixpoint mapR {A B} (f : A → Resultado B) (l : list A) : Resultado (list B) :=
  match l with
  | [] => Ok []
  | x :: l' => y ← f x; ys ← mapR f l'; Ok (y :: ys)
  end.

(** ** Data model *)

(** One row of [dados_salarios_limpos.csv]; the fields are the columns the
    script reads.  An empty [cargo] cell is read as a missing value, the one
    case line 69 depends on: it is [None]. *)
Record Registro : Type := {
  ano : Z;
  senioridade : string;
  contrato : string;
  tamanho_empresa : string;
  cargo : option string;
  remoto : string;
  residencia : string;
  usd : Z
}.

(** A column and a table, in index order. *)
Notation Series := list (only parsing).
Notation DataFrame := (list Registro) (only parsing).

(** [df['col']] *)
Definition coluna {A} (campo : Registro → A) (df : DataFrame) : Series A :=
  campo <$> df.

(** [df.empty] *)
Definition empty (df : DataFrame) : bool :=
  match df with
  | [] => true
  | _ :: _ => false
  end.

(** ** Sorting

    [sorted], [sort_values] and the key order of [groupby] are modelled by
    one stable insertion sort over a boolean order.  On a total preorder the
    result of a stable sort is determined by its input, so this is the list
    Timsort and mergesort return. *)

Section Ordenacao.
Context {A : Type} (leb : A → A → bool).

Fixpoint inserir (x : A) (l : list A) : list A :=
  match l with
  | [] => [x]
  | y :: l' => if leb x y then x :: y :: l' else y :: inserir x l'
  end.

Fixpoint ordenar (l : list A) : list A :=
  match l with
  | [] => []
  | x :: l' => inserir x (ordenar l')
  end.
End Ordenacao.

(** Python compares [str] by code point; on UTF-8 bytes this is the
    lexicographic byte order of [String.leb]. *)
Definition sorted_str : list string → list string := ordenar String.leb.
Definition sorted_int : list Z → list Z := ordenar Z.leb.

(** ** pandas column operations *)

(** [Series.unique()]: distinct values in order of first appearance; [vistos]
    is the hash table of values already emitted. *)
Fixpoint unique_desde `{EqDecision A} (vistos : list A) (s : Series A) : list A :=
  match s with
  | [] => []
  | x :: s' =>
      if decide (x ∈ vistos) then unique_desde vistos s'
      else x :: unique_desde (x :: vistos) s'
  end.

Definition unique `{EqDecision A} (s : Series A) : list A := unique_desde [] s.

(** [Series.dropna()]: the values that are present. *)
Definition dropna {A} (s : Series (option A)) : Series A := omap id s.

(** [Series.isin(valores)] *)
Definition isin `{EqDecision A} (s : Series A) (valores : list A) : Series bool :=
  (λ v, bool_decide (v ∈ valores)) <$> s.

(** [m1 & m2] on two masks over the same index. *)
Definition mascara_e (m1 m2 : Series bool) : Series bool := zip_with andb m1 m2.

(** [mask.nonzero()]: the positions that hold [True], counted from [k]. *)
Fixpoint nonzero_desde (k : nat) (m : Series bool) : list nat :=
  match m with
  | [] => []
  | b :: m' =>
      if b then k :: nonzero_desde (S k) m' else nonzero_desde (S k) m'
  end.

Definition nonzero (m : Series bool) : list nat := nonzero_desde 0 m.

(** [df.take(posicoes)] *)
Definition take_linhas (df : DataFrame) (posicoes : list nat) : Resultado DataFrame :=
  mapR (λ i, match df !! i with
             | Some r => Ok r
             | None => Raise IndexError
             end) posicoes.

(** [df[mask]] with a boolean Series: a mask of the wrong length is refused,
    otherwise the rows at the [True] positions are taken. *)
Definition getitem_bool (df : DataFrame) (m : Series bool) : Resultado DataFrame :=
  if (length m =? length df)%nat then take_linhas df (nonzero m)
  else Raise ValueError.

(** ** Sidebar filters (lines 36-59) *)

Record Selecao : Type := {
  anos_selecionados : list Z;
  senioridades_selecionadas : list string;
  contratos_selecionados : list string;
  tamanhos_selecionados : list string
}.

Definition anos_disponiveis (df : DataFrame) : list Z :=
  sorted_int (unique (coluna ano df)).
Definition senioridades_disponiveis (df : DataFrame) : list string :=
  sorted_str (unique (coluna senioridade df)).
Definition contratos_disponiveis (df : DataFrame) : list string :=
  sorted_str (unique (coluna contrato df)).
Definition tamanhos_disponiveis (df : DataFrame) : list string :=
  sorted_str (unique (coluna tamanho_empresa df)).

(** The [default=] of the four pills widgets: everything selected. *)
Definition selecao_padrao (df : DataFrame) : Selecao := {|
  anos_selecionados := anos_disponiveis df;
  senioridades_selecionadas := senioridades_disponiveis df;
  contratos_selecionados := contratos_disponiveis df;
  tamanhos_selecionados := tamanhos_disponiveis df
|}.

Definition df_filtrado (sel : Selecao) (df : DataFrame) : Resultado DataFrame :=
  getitem_bool df
    (mascara_e
       (mascara_e
          (mascara_e
             (isin (coluna ano df) (anos_selecionados sel))
             (isin (coluna senioridade df) (senioridades_selecionadas sel)))
          (isin (coluna contrato df) (contratos_selecionados sel)))
       (isin (coluna tamanho_empresa df) (tamanhos_selecionados sel))).

(** The four membership predicates of the filter, as a property of a row. *)
Definition satisfaz (sel : Selecao) (r : Registro) : Prop :=
  ano r ∈ anos_selecionados sel ∧
  senioridade r ∈ senioridades_selecionadas sel ∧
  contrato r ∈ contratos_selecionados sel ∧
  tamanho_empresa r ∈ tamanhos_selecionados sel.

#[global] Instance satisfaz_dec sel r : Decision (satisfaz sel r).
Proof. unfold satisfaz. apply _. Defined.

(** One run of the script up to line 59: the cached table [df] and the view
    computed from it. *)
Record Estado : Type := {
  est_df : DataFrame;
  est_df_filtrado : option DataFrame
}.

Definition executar_filtro (sel : Selecao) (e : Estado) : Resultado Estado :=
  v ← df_filtrado sel (est_df e);
  Ok {| est_df := est_df e; est_df_filtrado := Some v |}.

(** ** Python values held by the script's names *)

Inductive Valor : Type :=
  | VInt (z : Z)
  | VFloat (q : Q)   (* a float64, held as the rational number it denotes *)
  | VNaN
  | VStr (s : string)
  | VNone.

(** ** Column aggregates *)

(** [Series.max()]: NaN on an empty column. *)
Definition series_max (s : Series Z) : Valor :=
  match s with
  | [] => VNaN
  | x :: s' => VInt (foldr Z.max x s')
  end.

(** Number of occurrences of [x] in a column. *)
Definition contagem `{EqDecision A} (x : A) (s : Series A) : nat :=
  length (filter (x =.) s).

(** The hash-table pass of [Series.mode()] and [value_counts()]: each distinct
    value, in order of first appearance, with its number of occurrences. *)
Definition contagens `{EqDecision A} (s : Series A) : list (A * nat) :=
  (λ x, (x, contagem x s)) <$> unique s.

Definition maior_contagem {A} (vc : list (A * nat)) : nat :=
  foldr Nat.max 0%nat (vc.*2).

(** The values whose count is the largest one, in sorted order. *)
Definition mode_validos (v : Series string) : Series string :=
  let vc := contagens v in
  sorted_str ((filter (λ p, p.2 = maior_contagem vc) vc).*1).

(** [Series.mode()] ([dropna=True]): missing values are left out, then the
    values of largest count are returned in sorted order.  A column with no
    value present has an empty mode. *)
Definition mode (s : Series (option string)) : Series string :=
  mode_validos (dropna s).

(** [s[0]] on a Series with the default index [0..n-1]. *)
Definition getitem_0 {A} (s : Series A) : Resultado A :=
  match s with
  | [] => Raise KeyError
  | x :: _ => Ok x
  end.

(** Line 69: [df_filtrado['cargo'].mode()[0]]. *)
Definition cargo_mais_frequente (dff : DataFrame) : Resultado string :=
  getitem_0 (mode (coluna cargo dff)).

(** ** Names of the script *)

(** Tuple assignment [a, b, ... = v1, v2, ...]: the lengths are compared
    before any name is bound. *)
Definition desempacotar (alvos : list string) (valores : list Valor)
    (amb : gmap string Valor) : Resultado (gmap string Valor) :=
  if (length alvos =? length valores)%nat
  then Ok (foldl (λ a p, <[p.1 := p.2]> a) amb (zip alvos valores))
  else Raise ValueError.

(** Reading a name. *)
Definition ler (nome : string) (amb : gmap string Valor) : Resultado Valor :=
  match amb !! nome with
  | Some v => Ok v
  | None => Raise NameError
  end.

(** Lines 73-77: the four values handed to [metric]. *)
Definition exibir_metricas (amb : gmap string Valor) : Resultado (list Valor) :=
  m ← ler "salario_medio" amb;
  x ← ler "salario_maximo" amb;
  t ← ler "total_registros" amb;
  c ← ler "cargo_mais_frequente" amb;
  Ok [m; x; t; c].

(** ** Rows of the chart tables *)

(** A record of the [pycountry] database. *)
Record Pais : Type := {
  alpha_2 : string;
  alpha_3 : string;
  nome : string
}.

(** A row of [df_pais]. *)
Record LinhaPais : Type := {
  lp_residencia : string;
  lp_usd : Q;
  lp_iso_alpha : option string
}.

(** Float comparison of two means: [a >= b] and [a <= b] on the second
    component. *)
Definition media_desc (a b : string * Q) : bool := Qle_bool b.2 a.2.
Definition media_asc (a b : string * Q) : bool := Qle_bool a.2 b.2.

(** [df['cargo'] == valor]: a missing cell is not equal to any string. *)
Definition eq_escalar (s : Series (option string)) (valor : string) : Series bool :=
  (λ x, bool_decide (x = Some valor)) <$> s.

(** Line 136. *)
Definition df_ds (dff : DataFrame) : Resultado DataFrame :=
  getitem_bool dff (eq_escalar (coluna cargo dff) "Data Scientist").

(** ** Metrics, grouped aggregates and country codes *)

Section Bibliotecas.
(** [Series.mean()] and the per-group mean of [groupby(...).mean()] on a
    non-empty column of integers: a float64 computed by pandas from the
    values in row order.  The result is held as the rational it denotes; no
    arithmetic fact about it is assumed. *)
Variable series_mean_f64 : list Z → Q.
Variable group_mean_f64 : list Z → Q.

(** [Series.sort_values(ascending=...)] with the default sort kind: the
    order it leaves equal values in is not fixed. *)
Variable sort_values_f : bool → list (string * Q) → list (string * Q).

(** [str.upper] and [pycountry.countries.get(alpha_2=...)].  The lookup may
    answer with a record, with [None], or by raising. *)
Variable str_upper : string → string.
Variable countries_get : string → Resultado (option Pais).

(** [Series.mean()]: NaN on an empty column. *)
Definition series_mean (s : Series Z) : Valor :=
  match s with
  | [] => VNaN
  | _ :: _ => VFloat (series_mean_f64 s)
  end.

(** Lines 65-71. *)
Definition bloco_metricas (dff : DataFrame) (amb : gmap string Valor)
    : Resultado (gmap string Valor) :=
  if negb (empty dff) then
    let amb := <["salario_medio" := series_mean (coluna usd dff)]> amb in
    let amb := <["salario_maximo" := series_max (coluna usd dff)]> amb in
    let amb := <["total_registros" := VInt (Z.of_nat (length dff))]> amb in
    c ← cargo_mais_frequente dff;
    Ok (<["cargo_mais_frequente" := VStr c]> amb)
  else
    desempacotar
      ["salario_medio"; "salario_mediano"; "salario_maximo";
       "total_registros"; "cargo_mais_comum"]
      [VInt 0; VInt 0; VInt 0; VStr EmptyString] amb.

Definition metricas (dff : DataFrame) : Resultado (list Valor) :=
  amb ← bloco_metricas dff ∅;
  exibir_metricas amb.

(** [df.groupby(chave)['usd'].mean()] ([dropna=True]): one entry per distinct
    key that is present, keys in sorted order, each with the mean of [usd]
    over the rows of its group, taken in row order.  Rows whose key is
    missing belong to no group. *)
Definition groupby_mean (chave : Registro → option string) (df : DataFrame)
    : list (string * Q) :=
  (λ k, (k, group_mean_f64 (coluna usd (filter (λ r, chave r = Some k) df))))
    <$> sorted_str (unique (dropna (coluna chave df))).

(** [nlargest(n)] with [keep='first'].  With more than [n] entries: the first
    [n] of the stable descending order (equal means keep their order).  With
    [n] entries or fewer: [sort_values(ascending=False).head(n)]. *)
Definition nlargest (n : nat) (s : list (string * Q)) : list (string * Q) :=
  if (length s <=? n)%nat then take n (sort_values_f false s)
  else take n (ordenar media_desc s).

(** Line 88. *)
Definition top_cargos (dff : DataFrame) : list (string * Q) :=
  sort_values_f true (nlargest 10 (groupby_mean cargo dff)).


(** [valor.upper()] *)
Definition metodo_upper (v : Valor) : Resultado string :=
  match v with
  | VStr s => Ok (str_upper s)
  | _ => Raise AttributeError
  end.

(** [p.alpha_3] *)
Definition attr_alpha_3 (p : option Pais) : Resultado string :=
  match p with
  | Some p => Ok (alpha_3 p)
  | None => Raise AttributeError
  end.

(** Lines 8-12. *)
Definition converter_sigla (sigla : Valor) : Resultado (option string) :=
  tentar
    (s ← metodo_upper sigla;
     p ← countries_get s;
     a ← attr_alpha_3 p;
     Ok (Some a))
    (λ _, Ok None).

(** Lines 136-138. *)
Definition df_pais (dff : DataFrame) : Resultado (list LinhaPais) :=
  ds ← df_ds dff;
  let grupos := groupby_mean (λ r, Some (residencia r)) ds in
  iso ← mapR (λ x, converter_sigla (VStr (str_upper x))) (grupos.*1);
  Ok (zip_with (λ g i, {| lp_residencia := g.1; lp_usd := g.2;
                          lp_iso_alpha := i |}) grupos iso).

(** Lines 135-152: the map data, or [None] where the warning is shown. *)
Definition painel_paises (dff : DataFrame) : Resultado (option (list LinhaPais)) :=
  if negb (empty dff) then l ← df_pais dff; Ok (Some l) else Ok None.
End Bibliotecas.

(** ** Work-type counts (lines 117-132) *)

Definition contagem_desc (a b : string * nat) : bool := (b.2 <=? a.2)%nat.

(** [Series.value_counts()]: each distinct value with its number of
    occurrences, largest count first.  Where counts are equal pandas leaves
    the order to its sort kind; here they keep the order of first
    appearance. *)
Definition value_counts (s : Series string) : list (string * nat) :=
  ordenar contagem_desc (contagens s).

(** Lines 119-120: the rows [(tipo_trabalho, quantidade)]. *)
Definition remoto_contagem (dff : DataFrame) : list (string * nat) :=
  value_counts (coluna remoto dff).

(** Lines 118-132: the pie data, or [None] where the warning is shown. *)
Definition painel_remoto (dff : DataFrame) : option (list (string * nat)) :=
  if negb (empty dff) then Some (remoto_contagem dff) else None.

(** ** Instances of the library functions, for the examples

    The exact quotient of sum by count stands for the float64 mean: the two
    agree when the sum is below 2^53 and the quotient is an integer, which
    holds for every mean taken over the example tables below.  The stable
    sort is one sort that [sort_values] may be.  Upper-casing acts on ASCII
    letters, and the table has two records. *)

Definition soma (s : Series Z) : Z := foldr Z.add 0%Z s.

Definition media_exata (s : Series Z) : Q := soma s # Pos.of_nat (length s).

Definition sort_values_estavel (ascending : bool) (s : list (string * Q))
    : list (string * Q) :=
  ordenar (if ascending then media_asc else media_desc) s.

Definition maiuscula (c : ascii) : ascii :=
  let n := nat_of_ascii c in
  if ((97 <=? n) && (n <=? 122))%nat then ascii_of_nat (n - 32) else c.

Fixpoint upper_ascii (s : string) : string :=
  match s with
  | EmptyString => EmptyString
  | String c s' => String (maiuscula c) (upper_ascii s')
  end.

Definition tabela_exemplo (s : string) : Resultado (option Pais) :=
  if decide (s = "US") then
    Ok (Some {| alpha_2 := "US"; alpha_3 := "USA"; nome := "United States" |})
  else if decide (s = "BR") then
    Ok (Some {| alpha_2 := "BR"; alpha_3 := "BRA"; nome := "Brazil" |})
  else Ok None.

(** ** Vocabulary of the statements *)

Definition str_le (a b : string) : Prop := String.leb a b = true.

(** [opcoes] lists the values of a column once each, in ascending order. *)
Definition lista_de_opcoes {A} (le : A → A → Prop) (opcoes valores : list A)
    : Prop :=
  NoDup opcoes ∧ (∀ x, x ∈ opcoes ↔ x ∈ valores) ∧ StronglySorted le opcoes.

(** The selection in which only the year filter was touched. *)
Definition selecao_de_anos (df : DataFrame) (anos : list Z) : Selecao := {|
  anos_selecionados := anos;
  senioridades_selecionadas := senioridades_disponiveis df;
  contratos_selecionados := contratos_disponiveis df;
  tamanhos_selecionados := tamanhos_disponiveis df
|}.

(** The job titles present in a view, one per row that has one. *)
Definition titulos (dff : DataFrame) : list string := omap cargo dff.

(** What [sort_values] is documented to return: the same entries, in
    ascending or descending order of their values. *)
Definition contrato_sort_values
    (sort : bool → list (string * Q) → list (string * Q)) : Prop :=
  (∀ asc s, sort asc s ≡ₚ s) ∧
  (∀ s, StronglySorted (λ a b, (a.2 <= b.2)%Q) (sort true s)) ∧
  (∀ s, StronglySorted (λ a b, (b.2 <= a.2)%Q) (sort false s)).

(** ** Tie-breaking as the specification words it

    The specification's reading of "most frequent job title": a title of
    largest count whose first row comes before every row of any other title
    of the same count. *)
Definition mais_frequente_primeiro_encontrado (s : Series (option string))
    (t : string) : Prop :=
  Some t ∈ s ∧
  (∀ u, (contagem (Some u) s ≤ contagem (Some t) s)%nat) ∧
  (∀ u, contagem (Some u) s = contagem (Some t) s →
        ∃ i, s !! i = Some (Some t) ∧ ∀ j, s !! j = Some (Some u) → (i ≤ j)%nat).

(** ** Example tables *)

Definition linha (a : Z) (sen con tam car res : string) (u : Z) : Registro :=
  {| ano := a; senioridade := sen; contrato := con; tamanho_empresa := tam;
     cargo := Some car; remoto := "remoto"; residencia := res; usd := u |}.

(** A row whose [cargo] cell is empty. *)
Definition linha_sem_cargo (a : Z) (sen con tam res : string) (u : Z) : Registro :=
  {| ano := a; senioridade := sen; contrato := con; tamanho_empresa := tam;
     cargo := None; remoto := "remoto"; residencia := res; usd := u |}.

(** Two titles with one row each, the later one first in sorted order. *)
Definition tabela_empate : DataFrame :=
  [ linha 2023 "SE" "FT" "M" "Data Engineer" "US" 120000;
    linha 2023 "SE" "FT" "M" "Data Analyst" "US" 90000 ].

Definition tabela_paises : DataFrame :=
  [ linha 2023 "SE" "FT" "M" "Data Scientist" "us" 100000;
    linha 2023 "MI" "FT" "L" "Data Scientist" "ZZ" 70000;
    linha 2022 "SE" "FT" "M" "Data Engineer" "BR" 60000;
    linha 2022 "EN" "PT" "S" "Data Scientist" "us" 40000 ].

(** A non-empty view in which no row has a title. *)
Definition tabela_sem_cargo : DataFrame :=
  [ linha_sem_cargo 2023 "SE" "FT" "M" "US" 120000 ].

(** Twelve titles, one row each. *)
Definition tabela_cargos : DataFrame :=
  [ linha 2023 "SE" "FT" "M" "Analytics Engineer" "US" 95000;
    linha 2023 "MI" "FT" "M" "BI Analyst" "US" 70000;
    linha 2023 "MI" "FT" "L" "Data Analyst" "US" 80000;
    linha 2023 "EX" "FT" "L" "Data Architect" "US" 150000;
    linha 2023 "SE" "FT" "M" "Data Engineer" "US" 130000;
    linha 2023 "SE" "FT" "M" "Data Scientist" "US" 140000;
    linha 2023 "SE" "FT" "L" "ML Engineer" "US" 160000;
    linha 2023 "SE" "FT" "L" "Research Scientist" "US" 170000;
    linha 2023 "SE" "FT" "M" "Data Manager" "US" 120000;
    linha 2023 "MI" "FT" "S" "Statistician" "US" 90000;
    linha 2023 "EN" "FT" "S" "Data Specialist" "US" 60000;
    linha 2023 "EX" "FT" "L" "Head of Data" "US" 200000 ].

(** * Properties *)

(** ** The model on the example tables *)

Example df_filtrado_tabela_paises :
  df_filtrado
    {| anos_selecionados := [2023%Z];
       senioridades_selecionadas := ["MI"; "SE"];
       contratos_selecionados := ["FT"];
       tamanhos_selecionados := ["L"; "M"; "S"] |}
    tabela_paises
  = Ok [ linha 2023 "SE" "FT" "M" "Data Scientist" "us" 100000;
         linha 2023 "MI" "FT" "L" "Data Scientist" "ZZ" 70000 ].
Proof. reflexivity. Qed.

Example selecao_padrao_tabela_paises :
  selecao_padrao tabela_paises
  = {| anos_selecionados := [2022%Z; 2023%Z];
       senioridades_selecionadas := ["EN"; "MI"; "SE"];
       contratos_selecionados := ["FT"; "PT"];
       tamanhos_selecionados := ["L"; "M"; "S"] |}.
Proof. reflexivity. Qed.

Example mode_tabela_empate :
  mode (coluna cargo tabela_empate) = ["Data Analyst"; "Data Engineer"].
Proof. reflexivity. Qed.

Example metricas_tabela_paises :
  metricas media_exata tabela_paises
  = Ok [VFloat (270000 # 4)%Q; VInt 100000; VInt 4; VStr "Data Scientist"].
Proof. reflexivity. Qed.

Example metricas_tabela_sem_cargo :
  metricas media_exata tabela_sem_cargo = Raise KeyError.
Proof. reflexivity. Qed.

Example top_cargos_tabela_paises :
  top_cargos media_exata sort_values_estavel tabela_paises
  = [("Data Engineer", (60000 # 1)%Q); ("Data Scientist", (210000 # 3)%Q)].
Proof. reflexivity. Qed.

(** With twelve titles the two of smallest mean are cut. *)
Example top_cargos_tabela_cargos :
  (top_cargos media_exata sort_values_estavel tabela_cargos).*1
  = ["Data Analyst"; "Statistician"; "Analytics Engineer"; "Data Manager";
     "Data Engineer"; "Data Scientist"; "Data Architect"; "ML Engineer";
     "Research Scientist"; "Head of Data"].
Proof. reflexivity. Qed.

Example df_pais_tabela_paises :
  df_pais media_exata upper_ascii tabela_exemplo tabela_paises
  = Ok [ {| lp_residencia := "ZZ"; lp_usd := (70000 # 1)%Q; lp_iso_alpha := None |};
         {| lp_residencia := "us"; lp_usd := (140000 # 2)%Q;
            lp_iso_alpha := Some "USA" |} ].
Proof. reflexivity. Qed.

(** ** Sorting and [unique] *)

Section OrdenacaoFatos.
Context {A : Type} (leb : A → A → bool).

Lemma inserir_Permutation (x : A) (l : list A) : inserir leb x l ≡ₚ x :: l.
Proof.
  induction l as [|y l IH]; cbn; [done|].
  destruct (leb x y); [done|].
  rewrite IH. apply Permutation_swap.
Qed.

Lemma ordenar_Permutation (l : list A) : ordenar leb l ≡ₚ l.
Proof.
  induction l as [|x l IH]; cbn; [done|].
  rewrite inserir_Permutation. by f_equiv.
Qed.

Lemma elem_of_ordenar (x : A) (l : list A) : x ∈ ordenar leb l ↔ x ∈ l.
Proof. by rewrite ordenar_Permutation. Qed.

Lemma length_ordenar (l : list A) : length (ordenar leb l) = length l.
Proof. by rewrite ordenar_Permutation. Qed.

Hypothesis leb_total : ∀ x y, leb x y = true ∨ leb y x = true.
Hypothesis leb_trans : ∀ x y z, leb x y = true → leb y z = true → leb x z = true.

Lemma inserir_StronglySorted (x : A) (l : list A) :
  StronglySorted (λ a b, leb a b = true) l →
  StronglySorted (λ a b, leb a b = true) (inserir leb x l).
Proof.
  induction 1 as [|y l Hl IH Hy]; cbn.
  - repeat constructor.
  - destruct (leb x y) eqn:Hxy.
    + constructor; [by constructor|].
      constructor; [done|].
      eapply Forall_impl; [exact Hy|]. cbn. eauto.
    + constructor; [done|].
      rewrite inserir_Permutation. constructor; [|done].
      destruct (leb_total x y); congruence.
Qed.

Lemma ordenar_StronglySorted (l : list A) :
  StronglySorted (λ a b, leb a b = true) (ordenar leb l).
Proof.
  induction l as [|x l IH]; cbn; [constructor|].
  by apply inserir_StronglySorted.
Qed.
End OrdenacaoFatos.

Lemma string_leb_total (x y : string) : String.leb x y = true ∨ String.leb y x = true.
Proof. apply String.leb_total. Qed.

Lemma string_leb_trans (x y z : string) :
  String.leb x y = true → String.leb y z = true → String.leb x z = true.
Proof.
  unfold String.leb. revert y z.
  induction x as [|a x IH]; intros [|b y] [|c z]; cbn; try done.
  unfold Ascii.compare.
  destruct (N.compare_spec (N_of_ascii a) (N_of_ascii b)),
           (N.compare_spec (N_of_ascii b) (N_of_ascii c)),
           (N.compare_spec (N_of_ascii a) (N_of_ascii c));
    try done; try lia; apply IH.
Qed.

Lemma elem_of_unique_desde `{EqDecision A} (x : A) (vistos s : list A) :
  x ∈ unique_desde vistos s ↔ x ∈ s ∧ x ∉ vistos.
Proof.
  revert vistos. induction s as [|y s IH]; intros vistos; cbn.
  - rewrite elem_of_nil. tauto.
  - destruct (decide (y ∈ vistos)) as [Hy|Hy].
    + rewrite IH, elem_of_cons. split; [tauto|].
      intros [[->|?] ?]; tauto.
    + rewrite !elem_of_cons, IH, not_elem_of_cons.
      destruct (decide (x = y)) as [->|]; tauto.
Qed.

Lemma elem_of_unique `{EqDecision A} (x : A) (s : list A) : x ∈ unique s ↔ x ∈ s.
Proof. unfold unique. rewrite elem_of_unique_desde, elem_of_nil. tauto. Qed.

Lemma NoDup_unique_desde `{EqDecision A} (vistos s : list A) :
  NoDup (unique_desde vistos s).
Proof.
  revert vistos. induction s as [|y s IH]; intros vistos; cbn.
  - constructor.
  - destruct (decide (y ∈ vistos)); [apply IH|].
    constructor; [|apply IH].
    rewrite elem_of_unique_desde, not_elem_of_cons. tauto.
Qed.

Lemma NoDup_unique `{EqDecision A} (s : list A) : NoDup (unique s).
Proof. apply NoDup_unique_desde. Qed.

(** ** Filter: lemmas *)

Lemma take_linhas_nonzero (P : Registro → Prop) `{∀ r, Decision (P r)}
    (pre df : DataFrame) :
  take_linhas (pre ++ df)
    (nonzero_desde (length pre) ((λ r, bool_decide (P r)) <$> df))
  = Ok (filter P df).
Proof.
  revert pre. induction df as [|r df IH]; intros pre; [reflexivity|].
  specialize (IH (pre ++ [r])).
  rewrite <- app_assoc, length_app, Nat.add_1_r in IH. simpl in IH.
  rewrite fmap_cons, filter_cons. cbn [nonzero_desde].
  destruct (decide (P r)) as [HP|HP].
  - rewrite bool_decide_eq_true_2 by done.
    unfold take_linhas. cbn [mapR].
    rewrite list_lookup_middle by done. cbn.
    unfold take_linhas in IH. rewrite IH. reflexivity.
  - rewrite bool_decide_eq_false_2 by done. apply IH.
Qed.

Lemma getitem_bool_filter (P : Registro → Prop) `{∀ r, Decision (P r)}
    (df : DataFrame) :
  getitem_bool df ((λ r, bool_decide (P r)) <$> df) = Ok (filter P df).
Proof.
  unfold getitem_bool. rewrite length_fmap, Nat.eqb_refl.
  apply (take_linhas_nonzero P [] df).
Qed.

Lemma mascara_e_fmap (f g : Registro → bool) (df : DataFrame) :
  mascara_e (f <$> df) (g <$> df) = (λ r, f r && g r) <$> df.
Proof. induction df as [|r df IH]; [done|]. cbn. f_equal. apply IH. Qed.

Lemma df_filtrado_filter (sel : Selecao) (df : DataFrame) :
  df_filtrado sel df = Ok (filter (satisfaz sel) df).
Proof.
  unfold df_filtrado, isin, coluna.
  rewrite <- !list_fmap_compose, !mascara_e_fmap.
  rewrite <- (getitem_bool_filter (satisfaz sel) df). f_equal.
  apply list_fmap_ext. intros _ r _. cbn.
  unfold satisfaz.
  repeat match goal with
  | |- context [bool_decide ?Q] => destruct (bool_decide_reflect Q)
  end; cbn; tauto.
Qed.

Lemma filter_todos {A} (P : A → Prop) `{∀ x, Decision (P x)} (l : list A) :
  (∀ x, x ∈ l → P x) → filter P l = l.
Proof.
  induction l as [|x l IH]; intros HP; [done|].
  rewrite filter_cons_True by (apply HP; left).
  f_equal. apply IH. intros y Hy. apply HP. by right.
Qed.

Lemma filter_nenhum {A} (P : A → Prop) `{∀ x, Decision (P x)} (l : list A) :
  (∀ x, x ∈ l → ¬ P x) → filter P l = [].
Proof.
  induction l as [|x l IH]; intros HP; [done|].
  rewrite filter_cons_False by (apply HP; left).
  apply IH. intros y Hy. apply HP. by right.
Qed.

(** ** The filter (claims on [df_filtrado]) *)

(** C1: the filtered view is exactly the rows of the table that satisfy the
    four membership predicates, with their multiplicity and in the order of
    the table. *)
Theorem df_filtrado_exato (sel : Selecao) (df : DataFrame) :
  ∃ v,
    df_filtrado sel df = Ok v ∧
    v = filter (satisfaz sel) df ∧
    v `sublist_of` df ∧
    ∀ r, r ∈ v ↔ r ∈ df ∧ satisfaz sel r.
Proof.
  exists (filter (satisfaz sel) df). split_and!.
  - apply df_filtrado_filter.
  - done.
  - apply sublist_filter.
  - intros r. rewrite list_elem_of_filter. tauto.
Qed.

(** C3: an empty selection in any one of the four filters leaves no row. *)
Theorem df_filtrado_selecao_vazia (sel : Selecao) (df : DataFrame) :
  anos_selecionados sel = [] ∨
  senioridades_selecionadas sel = [] ∨
  contratos_selecionados sel = [] ∨
  tamanhos_selecionados sel = [] →
  df_filtrado sel df = Ok [].
Proof.
  intros Hvazia. rewrite df_filtrado_filter. f_equal.
  apply filter_nenhum. intros r _ (H1 & H2 & H3 & H4).
  destruct Hvazia as [E|[E|[E|E]]]; rewrite E in *;
    eapply not_elem_of_nil; eassumption.
Qed.

Lemma df_filtrado_selecao_vazia_witness :
  df_filtrado
    {| anos_selecionados := [2021%Z]; senioridades_selecionadas := [];
       contratos_selecionados := ["FT"]; tamanhos_selecionados := ["M"] |}
    [ {| ano := 2021; senioridade := "SE"; contrato := "FT";
         tamanho_empresa := "M"; cargo := Some "Data Engineer";
         remoto := "remoto";
         residencia := "US"; usd := 100000 |} ]
  = Ok [].
Proof. apply df_filtrado_selecao_vazia. right; left. reflexivity. Defined.

(** C8: filtering again with the same selection returns the same view, and a
    run of the filter leaves the cached table as it was. *)
Theorem df_filtrado_idempotente (sel : Selecao) (e : Estado) :
  ∃ v e',
    df_filtrado sel (est_df e) = Ok v ∧
    df_filtrado sel v = Ok v ∧
    executar_filtro sel e = Ok e' ∧
    est_df e' = est_df e ∧
    est_df_filtrado e' = Some v ∧
    executar_filtro sel e' = Ok e'.
Proof.
  exists (filter (satisfaz sel) (est_df e)).
  exists {| est_df := est_df e;
            est_df_filtrado := Some (filter (satisfaz sel) (est_df e)) |}.
  unfold executar_filtro. cbn [est_df est_df_filtrado].
  rewrite !df_filtrado_filter. cbn. split_and!; try done.
  f_equal. rewrite list_filter_filter. apply list_filter_iff. tauto.
Qed.

(** C9: with every value of each column selected, the filter returns the
    whole table. *)
Theorem df_filtrado_selecao_padrao (df : DataFrame) :
  df_filtrado (selecao_padrao df) df = Ok df.
Proof.
  rewrite df_filtrado_filter. f_equal.
  apply filter_todos. intros r Hr.
  unfold satisfaz, selecao_padrao, anos_disponiveis, senioridades_disponiveis,
    contratos_disponiveis, tamanhos_disponiveis, sorted_int, sorted_str, coluna.
  cbn. rewrite !elem_of_ordenar, !elem_of_unique.
  split_and!; by apply list_elem_of_fmap_2.
Qed.

(** ** Metrics block *)

Lemma contagem_pos `{EqDecision A} (x : A) (s : list A) :
  x ∈ s ↔ (0 < contagem x s)%nat.
Proof.
  unfold contagem. split.
  - intros Hx. assert (Hf : x ∈ filter (x =.) s) by by apply list_elem_of_filter.
    destruct (filter (x =.) s); [by apply elem_of_nil in Hf|cbn; lia].
  - destruct (filter (x =.) s) as [|y l] eqn:E; cbn; [lia|]. intros _.
    assert (Hy : y ∈ filter (x =.) s) by (rewrite E; left).
    apply list_elem_of_filter in Hy as [-> ?]. done.
Qed.

Lemma elem_of_contagens `{EqDecision A} (p : A * nat) (s : list A) :
  p ∈ contagens s ↔ p.1 ∈ s ∧ p.2 = contagem p.1 s.
Proof.
  unfold contagens. rewrite list_elem_of_fmap. split.
  - intros (x & -> & Hx). cbn. split; [by apply elem_of_unique|done].
  - intros [H1 H2]. exists p.1. rewrite elem_of_unique. split; [|done].
    destruct p; cbn in *; congruence.
Qed.

Lemma maior_contagem_ge {A} (vc : list (A * nat)) (p : A * nat) :
  p ∈ vc → (p.2 ≤ maior_contagem vc)%nat.
Proof.
  unfold maior_contagem. induction 1 as [p vc|p q vc _ IH]; cbn; lia.
Qed.

Lemma maior_contagem_atingida {A} (vc : list (A * nat)) :
  vc ≠ [] → ∃ p, p ∈ vc ∧ p.2 = maior_contagem vc.
Proof.
  unfold maior_contagem. induction vc as [|p vc IH]; [done|]. intros _.
  destruct vc as [|q vc].
  - exists p. split; [left|]. cbn. lia.
  - destruct IH as (p' & Hp' & E); [done|].
    change (foldr Nat.max 0%nat ((p :: q :: vc).*2))
      with (Nat.max (p.2) (foldr Nat.max 0%nat ((q :: vc).*2))).
    destruct (le_lt_dec (p.2) (p'.2)).
    + exists p'. split; [by right|lia].
    + exists p. split; [left|lia].
Qed.

Lemma elem_of_mode_validos (u : string) (s : Series string) :
  u ∈ mode_validos s ↔ u ∈ s ∧ contagem u s = maior_contagem (contagens s).
Proof.
  unfold mode_validos, sorted_str.
  rewrite elem_of_ordenar, list_elem_of_fmap. split.
  - intros (p & -> & Hp). apply list_elem_of_filter in Hp as [Hm Hp].
    apply elem_of_contagens in Hp as [? Hc]. split; [done|]. congruence.
  - intros [Hu Hc]. exists (u, contagem u s). split; [done|].
    apply list_elem_of_filter. split; [done|]. by apply elem_of_contagens.
Qed.

(** The head of the mode: a value of largest count, and the least one in
    string order among the values of that count. *)
Lemma mode_validos_cabeca (s : Series string) :
  s ≠ [] →
  ∃ t resto,
    mode_validos s = t :: resto ∧
    t ∈ s ∧
    (∀ u, (contagem u s ≤ contagem t s)%nat) ∧
    (∀ u, contagem u s = contagem t s → String.leb t u = true).
Proof.
  intros Hs.
  assert (Hvc : contagens s ≠ []).
  { destruct s as [|x s]; [done|].
    assert (Hx : (x, contagem x (x :: s)) ∈ contagens (x :: s))
      by (apply elem_of_contagens; split; [left|done]).
    intros E. rewrite E in Hx. by apply elem_of_nil in Hx. }
  destruct (maior_contagem_atingida _ Hvc) as (p & Hp & Hmax).
  apply elem_of_contagens in Hp as [Hps Hpc].
  assert (Hpm : p.1 ∈ mode_validos s)
    by (apply elem_of_mode_validos; split; [done|congruence]).
  pose proof (ordenar_StronglySorted String.leb string_leb_total
                string_leb_trans
                ((filter (λ q, q.2 = maior_contagem (contagens s))
                    (contagens s)).*1)) as Hsorted.
  change (StronglySorted (λ a b, String.leb a b = true) (mode_validos s))
    in Hsorted.
  destruct (mode_validos s) as [|t resto] eqn:Emode;
    [by apply elem_of_nil in Hpm|].
  assert (Ht : t ∈ mode_validos s) by (rewrite Emode; left).
  apply elem_of_mode_validos in Ht as [Hts Htc].
  exists t, resto. split_and!; [done|done| |].
  - intros u. rewrite Htc. destruct (decide (u ∈ s)) as [Hu|Hu].
    + apply (maior_contagem_ge (contagens s) (u, contagem u s)).
      by apply elem_of_contagens.
    + destruct (contagem u s) eqn:E; [lia|].
      exfalso. apply Hu, contagem_pos. lia.
  - intros u Hu.
    assert (Hus : u ∈ s) by (apply contagem_pos; apply contagem_pos in Hts; lia).
    assert (Hum : u ∈ mode_validos s)
      by (apply elem_of_mode_validos; split; [done|congruence]).
    rewrite Emode in Hum. apply elem_of_cons in Hum as [->|Hum].
    + destruct (string_leb_total t t); done.
    + apply StronglySorted_inv in Hsorted as [_ Hall].
      rewrite Forall_forall in Hall. by apply Hall.
Qed.

(** Missing values *)

Lemma elem_of_dropna {A} (x : A) (s : list (option A)) :
  x ∈ dropna s ↔ Some x ∈ s.
Proof.
  unfold dropna. rewrite list_elem_of_omap. split.
  - intros (o & Ho & E). cbn in E. by subst.
  - intros Hx. by exists (Some x).
Qed.

Lemma contagem_dropna `{EqDecision A} (x : A) (s : list (option A)) :
  contagem x (dropna s) = contagem (Some x) s.
Proof.
  unfold contagem, dropna. induction s as [|o s IH]; [done|].
  rewrite filter_cons. destruct o as [y|]; cbn [omap list_omap id].
  - rewrite filter_cons.
    destruct (decide (x = y)) as [->|Hne].
    + rewrite decide_True by done. cbn [length]. by rewrite <- IH.
    + rewrite decide_False by congruence. apply IH.
  - rewrite decide_False by done. apply IH.
Qed.

Lemma dropna_coluna_cargo (dff : DataFrame) :
  dropna (coluna cargo dff) = titulos dff.
Proof.
  unfold dropna, coluna, titulos. induction dff as [|r dff IH]; [done|].
  cbn. rewrite IH. by destruct (cargo r).
Qed.

Lemma mode_cabeca (s : Series (option string)) :
  dropna s ≠ [] →
  ∃ t resto,
    mode s = t :: resto ∧
    Some t ∈ s ∧
    (∀ u, (contagem (Some u) s ≤ contagem (Some t) s)%nat) ∧
    (∀ u, contagem (Some u) s = contagem (Some t) s → String.leb t u = true).
Proof.
  intros Hne.
  destruct (mode_validos_cabeca (dropna s) Hne) as (t & resto & E & H1 & H2 & H3).
  exists t, resto. split_and!; [done|by apply elem_of_dropna| |].
  - intros u. rewrite <- !contagem_dropna. apply H2.
  - intros u. rewrite <- !contagem_dropna. apply H3.
Qed.

Lemma coluna_nao_vazia {A} (campo : Registro → A) (dff : DataFrame) :
  dff ≠ [] → coluna campo dff ≠ [].
Proof. by destruct dff. Qed.

Lemma cargo_mais_frequente_cabeca (dff : DataFrame) :
  titulos dff ≠ [] →
  ∃ t resto,
    mode (coluna cargo dff) = t :: resto ∧
    cargo_mais_frequente dff = Ok t ∧
    Some t ∈ coluna cargo dff ∧
    (∀ u, (contagem (Some u) (coluna cargo dff)
           ≤ contagem (Some t) (coluna cargo dff))%nat) ∧
    (∀ u, contagem (Some u) (coluna cargo dff)
          = contagem (Some t) (coluna cargo dff) →
          String.leb t u = true).
Proof.
  intros Hne. rewrite <- dropna_coluna_cargo in Hne.
  destruct (mode_cabeca (coluna cargo dff) Hne) as (t & resto & E & H1 & H2 & H3).
  exists t, resto. unfold cargo_mais_frequente. by rewrite E.
Qed.

Lemma cargo_mais_frequente_KeyError (dff : DataFrame) :
  titulos dff = [] → cargo_mais_frequente dff = Raise KeyError.
Proof.
  intros E. unfold cargo_mais_frequente, mode.
  by rewrite dropna_coluna_cargo, E.
Qed.

Section MetricasFatos.
Context (series_mean_f64 : list Z → Q).

(** C2: on an empty view the metrics block does not reach its defaults: the
    tuple assignment of line 71 has five targets and four values and raises
    [ValueError]. *)
Theorem metricas_vazio_levanta (amb : gmap string Valor) :
  bloco_metricas series_mean_f64 [] amb = Raise ValueError ∧
  metricas series_mean_f64 [] = Raise ValueError.
Proof. split; reflexivity. Qed.

(** C10, amended: when at least one row of the view has a job title, the
    mode of the job-title column is not empty, so [mode()[0]] returns a title
    and the metrics block completes. *)
Theorem cargo_mais_frequente_seguro (dff : DataFrame) :
  titulos dff ≠ [] →
  mode (coluna cargo dff) ≠ [] ∧
  (∃ t, cargo_mais_frequente dff = Ok t) ∧
  (∃ amb, bloco_metricas series_mean_f64 dff ∅ = Ok amb).
Proof.
  intros Hne.
  destruct (cargo_mais_frequente_cabeca dff Hne) as (t & resto & E & Ecmf & _).
  unfold bloco_metricas. rewrite E, Ecmf.
  split_and!; [done|by exists t|].
  destruct dff; [done|]. cbn. eauto.
Qed.
End MetricasFatos.

(** C4 as stated fails: on [tabela_empate] both titles occur once, the first
    row holds "Data Engineer", and the reported title is "Data Analyst". *)
Lemma cargo_mais_frequente_nao_primeiro :
  ¬ (∀ dff : DataFrame, dff ≠ [] →
       ∃ t, cargo_mais_frequente dff = Ok t ∧
            mais_frequente_primeiro_encontrado (coluna cargo dff) t).
Proof.
  intros H. destruct (H tabela_empate) as (t & Ht & _ & _ & Hprimeiro); [done|].
  vm_compute in Ht. injection Ht as <-.
  destruct (Hprimeiro "Data Engineer") as (i & Hi & Hj); [reflexivity|].
  specialize (Hj 0 eq_refl).
  destruct i as [|i]; [discriminate Hi|lia].
Qed.

(** C4, amended: on every non-empty view the reported title has the largest
    count, and among the titles of that count it is the first in sorted
    (code-point) order; a title is reported whenever some row has one. *)
Theorem cargo_mais_frequente_moda (dff : DataFrame) :
  dff ≠ [] →
  (titulos dff ≠ [] → ∃ t, cargo_mais_frequente dff = Ok t) ∧
  ∀ t,
    cargo_mais_frequente dff = Ok t →
    Some t ∈ coluna cargo dff ∧
    (∀ u, (contagem (Some u) (coluna cargo dff)
           ≤ contagem (Some t) (coluna cargo dff))%nat) ∧
    (∀ u, contagem (Some u) (coluna cargo dff)
          = contagem (Some t) (coluna cargo dff) →
          String.leb t u = true).
Proof.
  intros _. split.
  - intros Hne.
    destruct (cargo_mais_frequente_cabeca dff Hne) as (t & resto & _ & E & _).
    by exists t.
  - intros t Et.
    destruct (decide (titulos dff = [])) as [Hsem|Hne].
    + rewrite (cargo_mais_frequente_KeyError dff Hsem) in Et. discriminate.
    + destruct (cargo_mais_frequente_cabeca dff Hne)
        as (t' & resto & _ & E & H).
      rewrite E in Et. injection Et as <-. exact H.
Qed.

Lemma cargo_mais_frequente_moda_witness :
  (titulos tabela_empate ≠ [] →
   ∃ t, cargo_mais_frequente tabela_empate = Ok t) ∧
  ∀ t,
    cargo_mais_frequente tabela_empate = Ok t →
    Some t ∈ coluna cargo tabela_empate ∧
    (∀ u, (contagem (Some u) (coluna cargo tabela_empate)
           ≤ contagem (Some t) (coluna cargo tabela_empate))%nat) ∧
    (∀ u, contagem (Some u) (coluna cargo tabela_empate)
          = contagem (Some t) (coluna cargo tabela_empate) →
          String.leb t u = true).
Proof. apply (cargo_mais_frequente_moda tabela_empate). discriminate. Defined.

(** C10 as stated fails: [tabela_sem_cargo] is a non-empty view whose only
    row has no job title; the mode of its job-title column is empty and
    [mode()[0]] raises [KeyError]. *)
Lemma cargo_mais_frequente_sem_titulo :
  ¬ (∀ dff : DataFrame, dff ≠ [] →
       mode (coluna cargo dff) ≠ [] ∧ ∃ t, cargo_mais_frequente dff = Ok t).
Proof.
  intros H. destruct (H tabela_sem_cargo) as [Hmode _]; [done|].
  by apply Hmode.
Qed.

Lemma cargo_mais_frequente_seguro_witness :
  mode (coluna cargo tabela_paises) ≠ [] ∧
  (∃ t, cargo_mais_frequente tabela_paises = Ok t) ∧
  (∃ amb, bloco_metricas media_exata tabela_paises ∅ = Ok amb).
Proof.
  apply (cargo_mais_frequente_seguro media_exata tabela_paises). discriminate.
Defined.

(** ** Grouped aggregates *)

Lemma Qle_bool_total (a b : Q) : Qle_bool a b = true ∨ Qle_bool b a = true.
Proof.
  rewrite !Qle_bool_iff.
  destruct (Qlt_le_dec a b); [left; by apply Qlt_le_weak|by right].
Qed.

Lemma Qle_bool_trans (a b c : Q) :
  Qle_bool a b = true → Qle_bool b c = true → Qle_bool a c = true.
Proof. rewrite !Qle_bool_iff. apply Qle_trans. Qed.

Lemma media_desc_total (a b : string * Q) :
  media_desc a b = true ∨ media_desc b a = true.
Proof. unfold media_desc. apply Qle_bool_total. Qed.

Lemma media_desc_trans (a b c : string * Q) :
  media_desc a b = true → media_desc b c = true → media_desc a c = true.
Proof. unfold media_desc. eauto using Qle_bool_trans. Qed.

Lemma media_asc_total (a b : string * Q) :
  media_asc a b = true ∨ media_asc b a = true.
Proof. unfold media_asc. apply Qle_bool_total. Qed.

Lemma media_asc_trans (a b c : string * Q) :
  media_asc a b = true → media_asc b c = true → media_asc a c = true.
Proof. unfold media_asc. eauto using Qle_bool_trans. Qed.

Lemma StronglySorted_impl {A} (R1 R2 : A → A → Prop) (l : list A) :
  (∀ x y, R1 x y → R2 x y) → StronglySorted R1 l → StronglySorted R2 l.
Proof.
  intros HR. induction 1 as [|x l _ IH Hx]; constructor; [done|].
  eapply Forall_impl; [exact Hx|]. cbn. auto.
Qed.

Lemma StronglySorted_last {A} (R : A → A → Prop) (l : list A) (z : A) :
  StronglySorted R l → last l = Some z → ∀ x, x ∈ l → x = z ∨ R x z.
Proof.
  induction 1 as [|y l Hl IH Hy]; [done|].
  destruct l as [|y' l].
  - intros [= <-] x ->%list_elem_of_singleton. by left.
  - rewrite last_cons_cons. intros Hz x Hx.
    apply elem_of_cons in Hx as [->|Hx]; [|by apply IH].
    right. rewrite Forall_forall in Hy. apply Hy.
    apply last_Some in Hz as [l' ->]. apply elem_of_app. right. left.
Qed.

Lemma length_unique `{EqDecision A} (l : list A) :
  length (unique l) = length (remove_dups l).
Proof.
  apply Permutation_length, NoDup_Permutation.
  - apply NoDup_unique.
  - apply NoDup_remove_dups.
  - intros x. by rewrite elem_of_unique, elem_of_remove_dups.
Qed.

(** The stable sort keeps the contract of [sort_values]. *)
Lemma sort_values_estavel_contrato : contrato_sort_values sort_values_estavel.
Proof.
  unfold contrato_sort_values, sort_values_estavel. split_and!.
  - intros asc s. apply ordenar_Permutation.
  - intros s. eapply StronglySorted_impl;
      [|exact (ordenar_StronglySorted media_asc media_asc_total
                 media_asc_trans s)].
    intros a b Hab. by apply Qle_bool_iff in Hab.
  - intros s. eapply StronglySorted_impl;
      [|exact (ordenar_StronglySorted media_desc media_desc_total
                 media_desc_trans s)].
    intros a b Hab. by apply Qle_bool_iff in Hab.
Qed.

Section AgrupamentoFatos.
Context (group_mean_f64 : list Z → Q).
Context (sort_values_f : bool → list (string * Q) → list (string * Q)).
Hypothesis contrato : contrato_sort_values sort_values_f.



Lemma elem_of_groupby_mean (chave : Registro → option string) (df : DataFrame)
    (p : string * Q) :
  p ∈ groupby_mean group_mean_f64 chave df ↔
  Some p.1 ∈ chave <$> df ∧
  p.2 = group_mean_f64 (usd <$> filter (λ r, chave r = Some p.1) df).
Proof.
  unfold groupby_mean, sorted_str, coluna. rewrite list_elem_of_fmap. split.
  - intros (k & -> & Hk).
    rewrite elem_of_ordenar, elem_of_unique, elem_of_dropna in Hk. done.
  - intros [Hk Hm]. exists p.1.
    rewrite elem_of_ordenar, elem_of_unique, elem_of_dropna.
    split; [|done]. destruct p; cbn in *; congruence.
Qed.

Lemma length_groupby_mean (chave : Registro → option string) (df : DataFrame) :
  length (groupby_mean group_mean_f64 chave df)
  = length (remove_dups (omap chave df)).
Proof.
  unfold groupby_mean, sorted_str.
  rewrite length_fmap, length_ordenar, length_unique. do 2 f_equal.
  unfold dropna, coluna. induction df as [|r df IH]; [done|].
  cbn. rewrite IH. by destruct (chave r).
Qed.

Lemma groupby_mean_nao_vazio (chave : Registro → option string)
    (df : DataFrame) (r : Registro) (k : string) :
  r ∈ df → chave r = Some k → groupby_mean group_mean_f64 chave df ≠ [].
Proof.
  intros Hr Hk E.
  assert (Hin : (k, group_mean_f64 (usd <$> filter (λ r0, chave r0 = Some k) df))
                ∈ groupby_mean group_mean_f64 chave df).
  { apply elem_of_groupby_mean. split; [|done]. cbn. rewrite <- Hk.
    by apply list_elem_of_fmap_2. }
  rewrite E in Hin. by apply elem_of_nil in Hin.
Qed.

(** [nlargest n] splits its input: what it keeps, and a rest none of whose
    values exceeds a value kept. *)
Lemma nlargest_particao (n : nat) (s : list (string * Q)) :
  ∃ resto,
    nlargest sort_values_f n s ++ resto ≡ₚ s ∧
    ∀ a b, a ∈ nlargest sort_values_f n s → b ∈ resto → (b.2 <= a.2)%Q.
Proof.
  destruct contrato as (Hperm & _ & _).
  unfold nlargest. destruct (length s <=? n)%nat eqn:E.
  - apply Nat.leb_le in E. exists [].
    rewrite take_ge by (by rewrite Hperm). rewrite app_nil_r.
    split; [apply Hperm|]. intros a b _ Hb. by apply elem_of_nil in Hb.
  - exists (drop n (ordenar media_desc s)). rewrite take_drop.
    split; [apply ordenar_Permutation|]. intros a b Ha Hb.
    pose proof (ordenar_StronglySorted media_desc media_desc_total
                  media_desc_trans s) as Hsd.
    rewrite <- (take_drop n) in Hsd.
    pose proof (StronglySorted_app_1_elem_of _ _ _ _ _ Hsd Ha Hb) as Hle.
    by apply Qle_bool_iff in Hle.
Qed.

Lemma length_nlargest (n : nat) (s : list (string * Q)) :
  length (nlargest sort_values_f n s) = Nat.min n (length s).
Proof.
  destruct contrato as (Hperm & _ & _).
  unfold nlargest. destruct (length s <=? n)%nat.
  - by rewrite length_take, Hperm.
  - by rewrite length_take, length_ordenar.
Qed.


(** X9: Line 88: on a view in which some row has a job title the last entry
    of the chart data (the top bar) is a title of the view with the mean
    pandas computes for it, and no title of the view has a larger mean. *)
Theorem top_cargos_ultimo_maior (dff : DataFrame) :
  titulos dff ≠ [] →
  ∃ p,
    last (top_cargos group_mean_f64 sort_values_f dff) = Some p ∧
    Some p.1 ∈ cargo <$> dff ∧
    p.2 = group_mean_f64 (usd <$> filter (λ r, cargo r = Some p.1) dff) ∧
    ∀ t, Some t ∈ cargo <$> dff →
         (group_mean_f64 (usd <$> filter (λ r, cargo r = Some t) dff)
          <= p.2)%Q.
Proof.
  intros Hne.
  pose proof contrato as (Hperm & Hasc & _).
  set (g := groupby_mean group_mean_f64 cargo dff).
  destruct (nlargest_particao 10 g) as (resto & Hpart & Hresto).
  assert (Htop : top_cargos group_mean_f64 sort_values_f dff
                 ≡ₚ nlargest sort_values_f 10 g) by apply Hperm.
  assert (Hlen : length (top_cargos group_mean_f64 sort_values_f dff) ≠ 0%nat).
  { rewrite Htop, length_nlargest. unfold g. rewrite length_groupby_mean.
    fold (titulos dff). destruct (titulos dff) as [|t ts] eqn:E; [done|].
    assert (Ht : t ∈ remove_dups (t :: ts))
      by (apply elem_of_remove_dups; left).
    destruct (remove_dups (t :: ts)); [by apply elem_of_nil in Ht|cbn; lia]. }
  destruct (last (top_cargos group_mean_f64 sort_values_f dff)) as [p|] eqn:Ep;
    [|apply last_None in Ep; by rewrite Ep in Hlen].
  assert (Hp : p ∈ top_cargos group_mean_f64 sort_values_f dff).
  { apply last_Some in Ep as [l' ->]. apply elem_of_app. right. left. }
  assert (Hpn : p ∈ nlargest sort_values_f 10 g) by by rewrite <- Htop.
  assert (Hpg : p ∈ g) by (rewrite <- Hpart; apply elem_of_app; by left).
  apply elem_of_groupby_mean in Hpg as [Hp1 Hp2].
  exists p. split_and!; [done|done|done|].
  intros t Ht.
  set (mt := group_mean_f64 (usd <$> filter (λ r, cargo r = Some t) dff)).
  assert (Hg : (t, mt) ∈ g) by by apply elem_of_groupby_mean.
  rewrite <- Hpart in Hg. apply elem_of_app in Hg as [Hg|Hg].
  - rewrite <- Htop in Hg.
    destruct (StronglySorted_last _ _ _ (Hasc _) Ep (t, mt) Hg) as [<-|Hle];
      [apply Qle_refl|done].
  - apply (Hresto p (t, mt) Hpn Hg).
Qed.
End AgrupamentoFatos.


Lemma top_cargos_ultimo_maior_witness :
  ∃ p,
    last (top_cargos media_exata sort_values_estavel tabela_cargos) = Some p ∧
    Some p.1 ∈ cargo <$> tabela_cargos ∧
    p.2 = media_exata (usd <$> filter (λ r, cargo r = Some p.1) tabela_cargos) ∧
    ∀ t, Some t ∈ cargo <$> tabela_cargos →
         (media_exata (usd <$> filter (λ r, cargo r = Some t) tabela_cargos)
          <= p.2)%Q.
Proof.
  apply (top_cargos_ultimo_maior media_exata sort_values_estavel
           sort_values_estavel_contrato tabela_cargos).
  discriminate.
Defined.

(** ** Country codes *)

Lemma mapR_ok {A B} (f : A → Resultado B) (g : A → B) (l : list A) :
  (∀ x, f x = Ok (g x)) → mapR f l = Ok (g <$> l).
Proof.
  intros Hf. induction l as [|x l IH]; [done|].
  cbn. rewrite Hf, IH. done.
Qed.

Lemma zip_with_fmap_chave {A B C D} (f : A → C → D) (g : B → C)
    (h : A → B) (l : list A) :
  zip_with f l (g <$> (h <$> l)) = (λ x, f x (g (h x))) <$> l.
Proof. induction l as [|x l IH]; [done|]. cbn. f_equal. apply IH. Qed.

Lemma df_ds_filter (dff : DataFrame) :
  df_ds dff = Ok (filter (λ r, cargo r = Some "Data Scientist") dff).
Proof.
  unfold df_ds, eq_escalar, coluna. rewrite <- list_fmap_compose.
  apply (getitem_bool_filter (λ r, cargo r = Some "Data Scientist")).
Qed.

Lemma omap_Some_fmap {A B} (f : A → B) (l : list A) :
  omap (λ x, Some (f x)) l = f <$> l.
Proof. induction l as [|x l IH]; [done|]. cbn. by rewrite IH. Qed.

Section NormalizadorFatos.
Context (group_mean_f64 : list Z → Q).
Context (str_upper : string → string).
Context (countries_get : string → Resultado (option Pais)).

Lemma converter_sigla_str (s : string) :
  converter_sigla str_upper countries_get (VStr s)
  = Ok match countries_get (str_upper s) with
       | Ok (Some p) => Some (alpha_3 p)
       | _ => None
       end.
Proof.
  unfold converter_sigla, tentar. cbn.
  destruct (countries_get (str_upper s)) as [[p|]|e]; reflexivity.
Qed.

(** C5: [converter_sigla] returns on every input.  A string whose upper-case
    form is in the table gives that record's 3-letter code, whatever the
    letter case it was written in; every other input (no record, a lookup
    that raises, a value that is not a string) gives [None]. *)
Theorem converter_sigla_total (sigla : Valor) :
  ∃ r,
    converter_sigla str_upper countries_get sigla = Ok r ∧
    (∀ s p, sigla = VStr s → countries_get (str_upper s) = Ok (Some p) →
            r = Some (alpha_3 p)) ∧
    ((∀ s p, sigla = VStr s → countries_get (str_upper s) ≠ Ok (Some p)) →
     r = None) ∧
    (∀ s s', sigla = VStr s → str_upper s' = str_upper s →
             converter_sigla str_upper countries_get (VStr s') = Ok r).
Proof.
  destruct sigla as [z|q| |s|];
    try (exists None; split_and!; [reflexivity|discriminate|done|discriminate]).
  eexists. split; [apply converter_sigla_str|]. split_and!.
  - intros s0 p [= <-] ->. done.
  - intros Hdesc.
    destruct (countries_get (str_upper s)) as [[p|]|e] eqn:E; try done.
    by destruct (Hdesc s p).
  - intros s0 s' [= <-] Hup. rewrite converter_sigla_str, Hup. done.
Qed.

(** The rows of [df_pais]: one per group of the "Data Scientist" rows. *)
Lemma df_pais_ok (dff : DataFrame) :
  df_pais group_mean_f64 str_upper countries_get dff
  = Ok ((λ g : string * Q,
           {| lp_residencia := g.1; lp_usd := g.2;
              lp_iso_alpha :=
                match countries_get (str_upper (str_upper g.1)) with
                | Ok (Some p) => Some (alpha_3 p)
                | _ => None
                end |})
          <$> groupby_mean group_mean_f64 (λ r, Some (residencia r))
                (filter (λ r, cargo r = Some "Data Scientist") dff)).
Proof.
  unfold df_pais. rewrite df_ds_filter. cbn.
  rewrite (mapR_ok _ (λ k, match countries_get (str_upper (str_upper k)) with
                           | Ok (Some p) => Some (alpha_3 p)
                           | _ => None
                           end))
    by (intros x; apply converter_sigla_str).
  cbn. by rewrite zip_with_fmap_chave.
Qed.


(** X11: Lines 135-152: on a non-empty view the map data is always produced;
    it has no row exactly when the view holds no "Data Scientist" row, and
    otherwise one row per distinct residence code of those rows.  The warning
    of line 152 is not what such a view gets. *)
Theorem painel_paises_sem_data_scientist (dff : DataFrame) :
  dff ≠ [] →
  ∃ l,
    painel_paises group_mean_f64 str_upper countries_get dff = Ok (Some l) ∧
    (l = [] ↔ ∀ r, r ∈ dff → cargo r ≠ Some "Data Scientist") ∧
    length l
    = length (unique (coluna residencia
                        (filter (λ r, cargo r = Some "Data Scientist") dff))).
Proof.
  intros Hne.
  assert (Hemp : empty dff = false) by by destruct dff.
  pose proof (df_pais_ok dff) as Hok.
  set (ds := filter (λ r, cargo r = Some "Data Scientist") dff) in *.
  set (l := _ <$> groupby_mean _ _ ds) in Hok.
  exists l. split_and!.
  - unfold painel_paises. rewrite Hemp, Hok. done.
  - split.
    + intros E%fmap_nil_inv r Hr Hds.
      assert (Hin : r ∈ ds) by by apply list_elem_of_filter.
      by apply (groupby_mean_nao_vazio group_mean_f64
                  (λ r, Some (residencia r)) ds r (residencia r)).
    + intros Hsem. unfold l. replace ds with (@nil Registro); [done|].
      symmetry. apply filter_nenhum. intros r Hr. by apply Hsem.
  - unfold l, coluna.
    by rewrite length_fmap, length_groupby_mean, omap_Some_fmap, length_unique.
Qed.
End NormalizadorFatos.

Lemma converter_sigla_total_witness :
  converter_sigla upper_ascii tabela_exemplo (VStr "us") = Ok (Some "USA") ∧
  converter_sigla upper_ascii tabela_exemplo (VStr "ZZ") = Ok None.
Proof.
  split.
  - destruct (converter_sigla_total upper_ascii tabela_exemplo (VStr "us"))
      as (r & -> & Hconhecida & _).
    f_equal.
    apply (Hconhecida "us" {| alpha_2 := "US"; alpha_3 := "USA";
                              nome := "United States" |}); reflexivity.
  - destruct (converter_sigla_total upper_ascii tabela_exemplo (VStr "ZZ"))
      as (r & -> & _ & Hdesconhecida & _).
    f_equal. apply Hdesconhecida. intros s p [= <-]. discriminate.
Defined.


Lemma painel_paises_sem_data_scientist_witness :
  ∃ l,
    painel_paises media_exata upper_ascii tabela_exemplo tabela_empate
    = Ok (Some l) ∧
    (l = [] ↔ ∀ r, r ∈ tabela_empate → cargo r ≠ Some "Data Scientist") ∧
    length l
    = length (unique (coluna residencia
                        (filter (λ r, cargo r = Some "Data Scientist")
                           tabela_empate))).
Proof.
  apply (painel_paises_sem_data_scientist media_exata upper_ascii
           tabela_exemplo tabela_empate).
  discriminate.
Defined.

(** * Further properties of the script *)

(** ** Sidebar options and the filter *)

(** Membership and inclusion between explicit lists. *)
Ltac membros :=
  repeat intro;
  repeat match goal with
         | H : _ ∈ _ |- _ => rewrite ?elem_of_cons, ?elem_of_nil in H
         end;
  rewrite ?elem_of_cons, ?elem_of_nil; intuition (subst; auto).

Lemma filter_iff_em {A} (P Q : A → Prop) `{∀ x, Decision (P x)}
    `{∀ x, Decision (Q x)} (l : list A) :
  (∀ x, x ∈ l → (P x ↔ Q x)) → filter P l = filter Q l.
Proof.
  induction l as [|x l IH]; intros HPQ; [done|].
  rewrite !filter_cons.
  assert (Hx := HPQ x ltac:(left)).
  rewrite IH by (intros y Hy; apply HPQ; by right).
  destruct (decide (P x)), (decide (Q x)); tauto.
Qed.

Lemma Z_leb_total (x y : Z) : (x <=? y)%Z = true ∨ (y <=? x)%Z = true.
Proof. rewrite !Z.leb_le. lia. Qed.

Lemma Z_leb_trans (x y z : Z) :
  (x <=? y)%Z = true → (y <=? z)%Z = true → (x <=? z)%Z = true.
Proof. rewrite !Z.leb_le. lia. Qed.

Lemma sorted_str_opcoes (valores : list string) :
  lista_de_opcoes str_le (sorted_str (unique valores)) valores.
Proof.
  unfold lista_de_opcoes, sorted_str. split_and!.
  - rewrite ordenar_Permutation. apply NoDup_unique.
  - intros x. by rewrite elem_of_ordenar, elem_of_unique.
  - apply ordenar_StronglySorted; [apply string_leb_total|apply string_leb_trans].
Qed.

(** X1: Lines 37-50: each filter offers the values present in its column, once
    each and in ascending order. *)
Theorem opcoes_disponiveis (df : DataFrame) :
  lista_de_opcoes Z.le (anos_disponiveis df) (coluna ano df) ∧
  lista_de_opcoes str_le (senioridades_disponiveis df) (coluna senioridade df) ∧
  lista_de_opcoes str_le (contratos_disponiveis df) (coluna contrato df) ∧
  lista_de_opcoes str_le (tamanhos_disponiveis df) (coluna tamanho_empresa df).
Proof.
  split_and!; try apply sorted_str_opcoes.
  unfold lista_de_opcoes, anos_disponiveis, sorted_int. split_and!.
  - rewrite ordenar_Permutation. apply NoDup_unique.
  - intros x. by rewrite elem_of_ordenar, elem_of_unique.
  - eapply StronglySorted_impl;
      [|exact (ordenar_StronglySorted Z.leb Z_leb_total Z_leb_trans
                 (unique (coluna ano df)))].
    intros x y. apply Z.leb_le.
Qed.

(** X2: Lines 54-59: selecting more never removes a row: when every list of
    [sel] is included in the matching list of [sel'], the view of [sel] is a
    sublist of the view of [sel']. *)
Theorem df_filtrado_monotono (sel sel' : Selecao) (df : DataFrame) :
  anos_selecionados sel ⊆ anos_selecionados sel' →
  senioridades_selecionadas sel ⊆ senioridades_selecionadas sel' →
  contratos_selecionados sel ⊆ contratos_selecionados sel' →
  tamanhos_selecionados sel ⊆ tamanhos_selecionados sel' →
  ∃ v v',
    df_filtrado sel df = Ok v ∧
    df_filtrado sel' df = Ok v' ∧
    v `sublist_of` v'.
Proof.
  intros Ha Hs Hc Ht.
  exists (filter (satisfaz sel) df), (filter (satisfaz sel') df).
  rewrite !df_filtrado_filter. split_and!; [done|done|].
  rewrite <- (list_filter_filter_l (satisfaz sel) (satisfaz sel') df).
  - apply sublist_filter.
  - intros r (H1 & H2 & H3 & H4). split_and!; auto.
Qed.

Lemma df_filtrado_monotono_witness :
  ∃ v v',
    df_filtrado (selecao_de_anos tabela_paises [2023%Z]) tabela_paises = Ok v ∧
    df_filtrado (selecao_padrao tabela_paises) tabela_paises = Ok v' ∧
    v `sublist_of` v'.
Proof.
  apply (df_filtrado_monotono (selecao_de_anos tabela_paises [2023%Z])
           (selecao_padrao tabela_paises) tabela_paises);
    vm_compute; intros x Hx; change (list_elem_of x ?l) with (x ∈ l) in *;
    membros.
Defined.

(** X3: Lines 54-59: only the set of selected values matters: two selections
    with the same members, in any order and with any repetition, give the
    same view. *)
Theorem df_filtrado_mesmos_membros (sel sel' : Selecao) (df : DataFrame) :
  (∀ a, a ∈ anos_selecionados sel ↔ a ∈ anos_selecionados sel') →
  (∀ x, x ∈ senioridades_selecionadas sel ↔ x ∈ senioridades_selecionadas sel') →
  (∀ x, x ∈ contratos_selecionados sel ↔ x ∈ contratos_selecionados sel') →
  (∀ x, x ∈ tamanhos_selecionados sel ↔ x ∈ tamanhos_selecionados sel') →
  df_filtrado sel df = df_filtrado sel' df.
Proof.
  intros Ha Hs Hc Ht. rewrite !df_filtrado_filter. f_equal.
  apply list_filter_iff. intros r. unfold satisfaz.
  rewrite (Ha (ano r)), (Hs (senioridade r)), (Hc (contrato r)),
    (Ht (tamanho_empresa r)). done.
Qed.

Lemma df_filtrado_mesmos_membros_witness :
  df_filtrado
    {| anos_selecionados := [2023%Z; 2022%Z; 2023%Z];
       senioridades_selecionadas := ["SE"; "EN"];
       contratos_selecionados := ["PT"; "FT"];
       tamanhos_selecionados := ["S"; "M"; "M"] |} tabela_paises
  = df_filtrado
    {| anos_selecionados := [2022%Z; 2023%Z];
       senioridades_selecionadas := ["EN"; "SE"];
       contratos_selecionados := ["FT"; "PT"];
       tamanhos_selecionados := ["M"; "S"] |} tabela_paises.
Proof. apply df_filtrado_mesmos_membros; cbn; membros. Defined.

(** X4: Lines 54-59: filtering a view again with another selection keeps the
    rows that pass both, and the two filters can be applied in either
    order. *)
Theorem df_filtrado_comuta (sel1 sel2 : Selecao) (df : DataFrame) :
  ∃ v1 v2 w,
    df_filtrado sel1 df = Ok v1 ∧
    df_filtrado sel2 df = Ok v2 ∧
    df_filtrado sel2 v1 = Ok w ∧
    df_filtrado sel1 v2 = Ok w ∧
    ∀ r, r ∈ w ↔ r ∈ df ∧ satisfaz sel1 r ∧ satisfaz sel2 r.
Proof.
  exists (filter (satisfaz sel1) df), (filter (satisfaz sel2) df),
    (filter (satisfaz sel2) (filter (satisfaz sel1) df)).
  rewrite !df_filtrado_filter. split_and!; try done.
  - f_equal. rewrite !list_filter_filter. apply list_filter_iff. tauto.
  - intros r. rewrite !list_elem_of_filter. tauto.
Qed.

(** X5: Lines 37-59: with the other three filters left at their defaults, the
    view for a list of years holds exactly the rows of those years, and it is
    empty only when none of the years is among the options offered. *)
Theorem df_filtrado_so_anos (df : DataFrame) (anos : list Z) :
  ∃ v,
    df_filtrado (selecao_de_anos df anos) df = Ok v ∧
    v = filter (λ r, ano r ∈ anos) df ∧
    (v ≠ [] ↔ ∃ a, a ∈ anos ∧ a ∈ anos_disponiveis df).
Proof.
  exists (filter (λ r, ano r ∈ anos) df).
  assert (Hpadrao : ∀ r, r ∈ df →
            (satisfaz (selecao_de_anos df anos) r ↔ ano r ∈ anos)).
  { intros r Hr.
    unfold satisfaz, selecao_de_anos, senioridades_disponiveis,
      contratos_disponiveis, tamanhos_disponiveis, sorted_str, coluna. cbn.
    rewrite !elem_of_ordenar, !elem_of_unique.
    split; [tauto|]. intros Ha. split_and!; [done|..];
      by apply list_elem_of_fmap_2. }
  split_and!; [|done|].
  - rewrite df_filtrado_filter. f_equal. by apply filter_iff_em.
  - split.
    + intros Hv.
      destruct (filter (λ r, ano r ∈ anos) df) as [|r v] eqn:E; [done|].
      assert (Hr : r ∈ filter (λ r, ano r ∈ anos) df) by (rewrite E; left).
      apply list_elem_of_filter in Hr as [Ha Hr].
      exists (ano r). split; [done|].
      unfold anos_disponiveis, sorted_int, coluna.
      rewrite elem_of_ordenar, elem_of_unique. by apply list_elem_of_fmap_2.
    + intros (a & Ha & Hdisp).
      unfold anos_disponiveis, sorted_int, coluna in Hdisp.
      rewrite elem_of_ordenar, elem_of_unique, list_elem_of_fmap in Hdisp.
      destruct Hdisp as (r & -> & Hr).
      assert (Hin : r ∈ filter (λ r, ano r ∈ anos) df)
        by by apply list_elem_of_filter.
      intros E. rewrite E in Hin. by apply elem_of_nil in Hin.
Qed.

(** ** Metrics on a view *)

Lemma foldr_max_cota (x : Z) (s : list Z) :
  foldr Z.max x s ∈ x :: s ∧ ∀ y, y ∈ x :: s → (y ≤ foldr Z.max x s)%Z.
Proof.
  induction s as [|z s [IHin IHle]]; cbn.
  - split; [left|]. intros y ->%list_elem_of_singleton. lia.
  - split.
    + destruct (Z.max_spec z (foldr Z.max x s)) as [[_ ->]|[_ ->]].
      * apply elem_of_cons in IHin as [->|?]; [left|by do 2 right].
      * right; left.
    + intros y Hy. assert (Hx := IHle x ltac:(left)).
      apply elem_of_cons in Hy as [->|Hy]; [lia|].
      apply elem_of_cons in Hy as [->|Hy]; [lia|].
      assert (Hys := IHle y ltac:(by right)). lia.
Qed.

Lemma series_max_cota (s : Series Z) :
  s ≠ [] →
  ∃ mx, series_max s = VInt mx ∧ mx ∈ s ∧ ∀ y, y ∈ s → (y ≤ mx)%Z.
Proof.
  destruct s as [|x s]; [done|]. intros _.
  exists (foldr Z.max x s). split; [done|]. apply foldr_max_cota.
Qed.

Section MetricasExtras.
Context (series_mean_f64 : list Z → Q).

(** X6: Lines 65-77: on a view in which some row has a job title the four
    values shown are the mean salary pandas computes over the salary column,
    the largest salary of the view, the number of rows and the most frequent
    title; every name read at lines 74-77 is bound. *)
Theorem metricas_nao_vazio (dff : DataFrame) :
  titulos dff ≠ [] →
  ∃ mx t,
    metricas series_mean_f64 dff
    = Ok [VFloat (series_mean_f64 (usd <$> dff)); VInt mx;
          VInt (Z.of_nat (length dff)); VStr t] ∧
    mx ∈ usd <$> dff ∧
    (∀ x, x ∈ usd <$> dff → (x ≤ mx)%Z) ∧
    cargo_mais_frequente dff = Ok t.
Proof.
  intros Htit.
  assert (Hne : dff ≠ []) by (intros ->; done).
  destruct (series_max_cota (coluna usd dff)) as (mx & Emx & Hin & Hle);
    [by apply coluna_nao_vazia|].
  destruct (cargo_mais_frequente_cabeca dff Htit) as (t & resto & _ & Ecmf & _).
  exists mx, t. split_and!; [|done|done|done].
  unfold metricas, bloco_metricas. rewrite Ecmf, Emx.
  destruct dff as [|r dff]; [done|]. reflexivity.
Qed.

(** X13: Lines 65-69: on a non-empty view in which no row has a job title,
    [mode()] is empty, [mode()[0]] raises [KeyError], and the metrics block
    ends with that exception. *)
Theorem metricas_sem_titulo (dff : DataFrame) (amb : gmap string Valor) :
  dff ≠ [] →
  titulos dff = [] →
  mode (coluna cargo dff) = [] ∧
  cargo_mais_frequente dff = Raise KeyError ∧
  bloco_metricas series_mean_f64 dff amb = Raise KeyError ∧
  metricas series_mean_f64 dff = Raise KeyError.
Proof.
  intros Hne Htit.
  pose proof (cargo_mais_frequente_KeyError dff Htit) as Ecmf.
  assert (Hemp : empty dff = false) by by destruct dff.
  split_and!.
  - unfold mode. by rewrite dropna_coluna_cargo, Htit.
  - done.
  - unfold bloco_metricas. by rewrite Hemp, Ecmf.
  - unfold metricas, bloco_metricas. by rewrite Hemp, Ecmf.
Qed.
End MetricasExtras.

Lemma metricas_nao_vazio_witness :
  ∃ mx t,
    metricas media_exata tabela_paises
    = Ok [VFloat (media_exata (usd <$> tabela_paises)); VInt mx;
          VInt (Z.of_nat (length tabela_paises)); VStr t] ∧
    mx ∈ usd <$> tabela_paises ∧
    (∀ x, x ∈ usd <$> tabela_paises → (x ≤ mx)%Z) ∧
    cargo_mais_frequente tabela_paises = Ok t.
Proof. apply (metricas_nao_vazio media_exata tabela_paises). discriminate. Defined.

Lemma metricas_sem_titulo_witness :
  mode (coluna cargo tabela_sem_cargo) = [] ∧
  cargo_mais_frequente tabela_sem_cargo = Raise KeyError ∧
  bloco_metricas media_exata tabela_sem_cargo ∅ = Raise KeyError ∧
  metricas media_exata tabela_sem_cargo = Raise KeyError.
Proof.
  apply (metricas_sem_titulo media_exata tabela_sem_cargo ∅);
    [discriminate|reflexivity].
Defined.

(** ** Row order *)

#[global] Instance str_le_antisymm : AntiSymm (=) (λ a b, String.leb a b = true).
Proof. intros a b. apply String.leb_antisym. Qed.

Lemma contagem_Permutation `{EqDecision A} (x : A) (s s' : list A) :
  s ≡ₚ s' → contagem x s = contagem x s'.
Proof. unfold contagem. by intros ->. Qed.

Lemma elem_of_contagens_Permutation `{EqDecision A} (p : A * nat) (s s' : list A) :
  s ≡ₚ s' → p ∈ contagens s → p ∈ contagens s'.
Proof.
  intros Hp. rewrite !elem_of_contagens, (contagem_Permutation _ s s' Hp).
  by rewrite Hp.
Qed.

Lemma maior_contagem_mono {A} (vc vc' : list (A * nat)) :
  (∀ p, p ∈ vc → p ∈ vc') → (maior_contagem vc ≤ maior_contagem vc')%nat.
Proof.
  intros Hsub. destruct vc as [|q vc]; [cbn; lia|].
  destruct (maior_contagem_atingida (q :: vc)) as (p & Hp & <-); [done|].
  by apply maior_contagem_ge, Hsub.
Qed.

Lemma maior_contagem_Permutation `{EqDecision A} (s s' : list A) :
  s ≡ₚ s' → maior_contagem (contagens s) = maior_contagem (contagens s').
Proof.
  intros Hp. apply Nat.le_antisymm; apply maior_contagem_mono; intros p.
  - by apply elem_of_contagens_Permutation.
  - by apply elem_of_contagens_Permutation.
Qed.

Lemma contagens_chaves `{EqDecision A} (s : list A) : (contagens s).*1 = unique s.
Proof.
  unfold contagens. induction (unique s) as [|x l IH]; [done|].
  cbn. f_equal. apply IH.
Qed.

Lemma NoDup_mode_validos (s : Series string) : NoDup (mode_validos s).
Proof.
  unfold mode_validos, sorted_str. rewrite ordenar_Permutation.
  eapply sublist_NoDup; [|apply fmap_sublist, sublist_filter].
  rewrite contagens_chaves. apply NoDup_unique.
Qed.

Lemma mode_validos_Permutation (s s' : Series string) :
  s ≡ₚ s' → mode_validos s = mode_validos s'.
Proof.
  intros Hp. apply (StronglySorted_unique (λ a b, String.leb a b = true)).
  - apply ordenar_StronglySorted; [apply string_leb_total|apply string_leb_trans].
  - apply ordenar_StronglySorted; [apply string_leb_total|apply string_leb_trans].
  - apply NoDup_Permutation; [apply NoDup_mode_validos|apply NoDup_mode_validos|].
    intros u. rewrite !elem_of_mode_validos, (contagem_Permutation u s s' Hp),
      (maior_contagem_Permutation s s' Hp). by rewrite Hp.
Qed.

Lemma mode_Permutation (s s' : Series (option string)) :
  s ≡ₚ s' → mode s = mode s'.
Proof.
  intros Hp. unfold mode, dropna. apply mode_validos_Permutation. by rewrite Hp.
Qed.

(** X8: Line 69: the most frequent title depends on the rows of the view, not
    on their order: two views with the same rows in different orders report
    the same title. *)
Theorem cargo_mais_frequente_ordem_das_linhas (dff dff' : DataFrame) :
  dff ≡ₚ dff' → cargo_mais_frequente dff = cargo_mais_frequente dff'.
Proof.
  intros Hp. unfold cargo_mais_frequente, coluna.
  by rewrite (mode_Permutation (cargo <$> dff) (cargo <$> dff')) by by rewrite Hp.
Qed.

Lemma cargo_mais_frequente_ordem_das_linhas_witness :
  cargo_mais_frequente tabela_empate
  = cargo_mais_frequente (reverse tabela_empate).
Proof.
  apply cargo_mais_frequente_ordem_das_linhas. apply Permutation_swap.
Defined.

(** ** Pie chart (lines 119-120) *)

Lemma contagem_desc_total (a b : string * nat) :
  contagem_desc a b = true ∨ contagem_desc b a = true.
Proof. unfold contagem_desc. rewrite !Nat.leb_le. lia. Qed.

Lemma contagem_desc_trans (a b c : string * nat) :
  contagem_desc a b = true → contagem_desc b c = true → contagem_desc a c = true.
Proof. unfold contagem_desc. rewrite !Nat.leb_le. lia. Qed.

Lemma sum_list_with_cons {A} (f : A → nat) (x : A) (l : list A) :
  sum_list_with f (x :: l) = (f x + sum_list_with f l)%nat.
Proof. reflexivity. Qed.

Lemma sum_contagem_cons `{EqDecision A} (y : A) (s l : list A) :
  sum_list_with (λ x, contagem x (y :: s)) l
  = (sum_list_with (λ x, if decide (x = y) then 1 else 0) l
     + sum_list_with (λ x, contagem x s) l)%nat.
Proof.
  induction l as [|x l IH]; [done|]. rewrite !sum_list_with_cons, IH.
  unfold contagem. rewrite filter_cons.
  destruct (decide (x = y)); cbn [length]; lia.
Qed.

Lemma sum_indicador `{EqDecision A} (y : A) (l : list A) :
  NoDup l → y ∈ l →
  sum_list_with (λ x, if decide (x = y) then 1 else 0) l = 1%nat.
Proof.
  induction 1 as [|x l Hx Hl IH]; intros Hy; [by apply elem_of_nil in Hy|].
  rewrite sum_list_with_cons. destruct (decide (x = y)) as [->|Hne].
  - assert (E : sum_list_with (λ x, if decide (x = y) then 1 else 0) l = 0%nat);
      [|lia].
    clear IH Hy Hl. induction l as [|z l IH]; [done|].
    apply not_elem_of_cons in Hx as [Hz Hx]. rewrite sum_list_with_cons.
    rewrite decide_False by done. by apply IH.
  - apply elem_of_cons in Hy as [->|Hy]; [done|]. by rewrite IH.
Qed.

Lemma sum_contagem `{EqDecision A} (s l : list A) :
  NoDup l → (∀ x, x ∈ s → x ∈ l) →
  sum_list_with (λ x, contagem x s) l = length s.
Proof.
  intros Hl. induction s as [|y s IH]; intros Hs.
  - clear. induction l as [|x l IH]; [done|].
    rewrite sum_list_with_cons, IH. done.
  - rewrite sum_contagem_cons, sum_indicador, IH; [done| |done|].
    + intros x Hx. apply Hs. by right.
    + apply Hs. left.
Qed.

Lemma sum_contagens `{EqDecision A} (s : list A) :
  sum_list_with snd (contagens s) = length s.
Proof.
  rewrite <- (sum_contagem s (unique s)).
  - unfold contagens. induction (unique s) as [|x l IH]; [done|].
    rewrite fmap_cons, !sum_list_with_cons, IH. done.
  - apply NoDup_unique.
  - intros x. by rewrite elem_of_unique.
Qed.

(** X10: Lines 119-120: the pie data has one row per work type present in the
    view, with the number of its rows; every count is positive, the counts
    add up to the number of rows of the view, and they come in descending
    order. *)
Theorem remoto_contagem_total (dff : DataFrame) :
  NoDup (remoto_contagem dff).*1 ∧
  (∀ k n, (k, n) ∈ remoto_contagem dff ↔
          k ∈ coluna remoto dff ∧ n = contagem k (coluna remoto dff)) ∧
  (∀ p, p ∈ remoto_contagem dff → (0 < p.2)%nat) ∧
  sum_list_with snd (remoto_contagem dff) = length dff ∧
  StronglySorted (λ a b, (b.2 ≤ a.2)%nat) (remoto_contagem dff).
Proof.
  unfold remoto_contagem, value_counts.
  pose proof (ordenar_Permutation contagem_desc
                (contagens (coluna remoto dff))) as Hp.
  split_and!.
  - rewrite Hp, contagens_chaves. apply NoDup_unique.
  - intros k n. rewrite Hp. apply (elem_of_contagens (k, n)).
  - intros p. rewrite Hp. intros [Hk ->]%elem_of_contagens.
    by apply contagem_pos.
  - rewrite Hp, sum_contagens. unfold coluna. by rewrite length_fmap.
  - eapply StronglySorted_impl;
      [|exact (ordenar_StronglySorted contagem_desc contagem_desc_total
                 contagem_desc_trans (contagens (coluna remoto dff)))].
    intros a b. unfold contagem_desc. apply Nat.leb_le.
Qed.

